(** * Legislative Acts Analyzer: the state model of [app/page.tsx]

    A shallow embedding of the React component [LegislativeActsAnalyzer]:
    its four pieces of state, its event handlers and the text template of
    the placeholder analysis, followed by the properties of the handlers. *)

From Stdlib Require Import String Ascii List ZArith Lia Bool.
From Stdlib Require Import DecimalString DecimalZ.
Import ListNotations.

Local Open Scope string_scope.
Local Open Scope list_scope.

(** ** JavaScript strings and numbers

    A string is the sequence of its code units; the separators the component
    splits on (space and line feed) and the template text are ASCII, and a
    byte below 128 of a UTF-8 text is always a character of its own, so
    counting over the bytes and over the code units agrees. *)

Definition SP : ascii := "032"%char.
Definition TAB : ascii := "009"%char.
Definition LF : ascii := "010"%char.
Definition CR : ascii := "013"%char.

(** The string ["\n"] of the source. *)
Definition nl : string := String LF "".

Module JS.

(** [String.prototype.split] with a string separator and no limit.
    [split_from sep skip cur s] scans [s]; [cur] is the segment being
    collected and [skip] the number of code units of a matched separator
    still to pass over. *)
Fixpoint split_from (sep : string) (skip : nat) (cur s : string) : list string :=
  match s with
  | EmptyString => [cur]
  | String c s' =>
      match skip with
      | S k => split_from sep k cur s'
      | O =>
          if prefix sep s
          then cur :: split_from sep (String.length sep - 1) "" s'
          else split_from sep 0 (cur ++ String c "") s'
      end
  end.

Definition split (sep s : string) : list string :=
  match sep with
  | EmptyString => map (fun c => String c "") (list_ascii_of_string s)
  | String _ _ => split_from sep 0 "" s
  end.

(** [Array.prototype.length], a Number. *)
Definition length {A : Type} (l : list A) : Z := Z.of_nat (List.length l).

(** [Number.prototype.toString] on an integer (below 1e21 in magnitude):
    its decimal digits, with a minus sign when negative. *)
Definition toString (n : Z) : string :=
  NilEmpty.string_of_int (Z.to_int n).

End JS.

(** ** Data model *)

(** [interface Analysis]. *)
Record Analysis : Type := mkAnalysis {
  id : string;
  filename : string;
  date : string;
  content : string;
  originalText : string
}.

(** The browser's [File]: an immutable snapshot with a name; [fileText] is
    the text that [text()] resolves to when the read succeeds. *)
Record File : Type := mkFile {
  name : string;
  fileText : string
}.

(** The four [useState] cells of the component. *)
Record State : Type := mkState {
  uploadedFile : option File;
  analyses : list Analysis;
  selectedAnalysis : option Analysis;
  isAnalyzing : bool
}.

(** [useState] initial values. *)
Definition initialState : State :=
  {| uploadedFile := None; analyses := []; selectedAnalysis := None;
     isAnalyzing := false |}.

(** [new Blob([parts], { type })]. *)
Record Blob : Type := mkBlob {
  blobParts : string;
  blobType : string
}.

(** What a handler does to the world outside the component state. *)
Inductive Effect : Type :=
| ConsoleError (message : string) (error : string)
| Alert (message : string)
| AnchorClick (href : Blob) (download : string).

(** What one run of [handleAnalyze] reads from its environment: the clock
    behind [Date.now()], the text of [new Date().toLocaleString()], and
    whether the read of the file is rejected (with which error). *)
Record World : Type := mkWorld {
  dateNow : Z;
  dateLocaleString : string;
  readError : option string
}.

(** ** Handlers as state-and-effect computations *)

Inductive Outcome (A : Type) : Type :=
| Resolved (a : A)
| Rejected (e : string).
Arguments Resolved {A} a.
Arguments Rejected {A} e.

Definition M (A : Type) : Type := State -> Outcome A * State * list Effect.

Definition ret {A : Type} (a : A) : M A := fun s => (Resolved a, s, []).

Definition bind {A B : Type} (m : M A) (k : A -> M B) : M B := fun s =>
  let '(o, s1, l1) := m s in
  match o with
  | Resolved a => let '(o2, s2, l2) := k a s1 in (o2, s2, l1 ++ l2)
  | Rejected e => (Rejected e, s1, l1)
  end.

Notation "x <- m ;; k" := (bind m (fun x => k))
  (at level 61, m at next level, right associativity).
Notation "m ;; k" := (bind m (fun _ => k))
  (at level 61, right associativity).

(** [await p] for a promise that has settled with outcome [p]. *)
Definition await {A : Type} (p : Outcome A) : M A := fun s => (p, s, []).

Definition emit (e : Effect) : M unit := fun s => (Resolved tt, s, [e]).

(** [try { body } catch (error) { handler } finally { fin }]. *)
Definition tryCatchFinally {A : Type}
    (body : M A) (handler : string -> M A) (fin : M unit) : M A := fun s =>
  let '(o1, s1, l1) := body s in
  let '(o2, s2, l2) :=
    match o1 with
    | Resolved a => (Resolved a, s1, [])
    | Rejected e => handler e s1
    end in
  let '(o3, s3, l3) := fin s2 in
  (match o3 with Rejected e => Rejected e | Resolved _ => o2 end,
   s3, l1 ++ l2 ++ l3).

(** The setters returned by [useState]. *)
Definition setUploadedFile (f : option File) : M unit := fun s =>
  (Resolved tt,
   {| uploadedFile := f; analyses := analyses s;
      selectedAnalysis := selectedAnalysis s; isAnalyzing := isAnalyzing s |},
   []).

Definition setAnalyses (l : list Analysis) : M unit := fun s =>
  (Resolved tt,
   {| uploadedFile := uploadedFile s; analyses := l;
      selectedAnalysis := selectedAnalysis s; isAnalyzing := isAnalyzing s |},
   []).

Definition setSelectedAnalysis (a : option Analysis) : M unit := fun s =>
  (Resolved tt,
   {| uploadedFile := uploadedFile s; analyses := analyses s;
      selectedAnalysis := a; isAnalyzing := isAnalyzing s |},
   []).

Definition setIsAnalyzing (b : bool) : M unit := fun s =>
  (Resolved tt,
   {| uploadedFile := uploadedFile s; analyses := analyses s;
      selectedAnalysis := selectedAnalysis s; isAnalyzing := b |},
   []).

(** The state a handler leaves and the effects it performs. *)
Definition stateAfter {A : Type} (m : M A) (s : State) : State := snd (fst (m s)).
Definition effectsOf {A : Type} (m : M A) (s : State) : list Effect := snd (m s).

(** [uploadedFile.text()]. *)
Definition File_text (w : World) (f : File) : Outcome string :=
  match readError w with
  | Some e => Rejected e
  | None => Resolved (fileText f)
  end.

(** The template literal of [mockAnalysis], with its three holes. *)
Definition analysisTemplate (fname : string) (words lines : Z) : string :=
  "Analysis of " ++ fname ++ ":" ++ nl ++ nl ++
  "This legislative act contains " ++ JS.toString words ++
  " words and " ++ JS.toString lines ++ " lines." ++ nl ++ nl ++
  "Key sections identified:" ++ nl ++
  "- Preamble" ++ nl ++
  "- Main provisions" ++ nl ++
  "- Enforcement clauses" ++ nl ++ nl ++
  "Summary: This document outlines legislative provisions...".

Definition mockAnalysis (file : File) (fileContent : string) : string :=
  analysisTemplate (name file)
    (JS.length (JS.split " " fileContent))
    (JS.length (JS.split nl fileContent)).

(** [handleFileUpload]: [e.target.files?.[0]] is the file picked, if any. *)
Definition handleFileUpload (file : option File) : M unit :=
  match file with
  | None => ret tt
  | Some f => setUploadedFile (Some f)
  end.

(** [handleAnalyze].  The handler reads [uploadedFile] and [analyses] as the
    render that created it saw them; no other transition runs between its
    start and its end. *)
Definition handleAnalyze (w : World) : M unit := fun s =>
  let uploaded := uploadedFile s in
  let history := analyses s in
  match uploaded with
  | None => ret tt s
  | Some file =>
      (setIsAnalyzing true ;;
       tryCatchFinally
         (fileContent <- await (File_text w file) ;;
          let newAnalysis :=
            {| id := JS.toString (dateNow w);
               filename := name file;
               date := dateLocaleString w;
               content := mockAnalysis file fileContent;
               originalText := fileContent |} in
          setAnalyses (newAnalysis :: history) ;;
          setSelectedAnalysis (Some newAnalysis))
         (fun error => emit (ConsoleError "Analysis failed:" error))
         (setIsAnalyzing false)) s
  end.

(** [handleRemove]. *)
Definition handleRemove : M unit := setUploadedFile None.

(** [handleExportPDF]. *)
Definition handleExportPDF : M unit := fun s =>
  match selectedAnalysis s with
  | None => ret tt s
  | Some _ =>
      emit (Alert "PDF export functionality - integrate with jsPDF or similar library") s
  end.

(** [handleExportTXT]: the anchor that is clicked carries the blob behind
    its object URL and the [download] name. *)
Definition handleExportTXT : M unit := fun s =>
  match selectedAnalysis s with
  | None => ret tt s
  | Some selected =>
      let blob := {| blobParts := content selected; blobType := "text/plain" |} in
      emit (AnchorClick blob (filename selected ++ "_analysis.txt")) s
  end.

(** The [onClick] of a history entry. *)
Definition handleSelect (a : Analysis) : M unit := setSelectedAnalysis (Some a).

(** ** Sessions: sequences of user events *)

Inductive Event : Type :=
| FileChosen (file : option File)
| AnalyzeClicked (w : World)
| RemoveClicked
| HistoryClicked (a : Analysis)
| ExportPDFClicked
| ExportTXTClicked.

Definition handler (ev : Event) : M unit :=
  match ev with
  | FileChosen file => handleFileUpload file
  | AnalyzeClicked w => handleAnalyze w
  | RemoveClicked => handleRemove
  | HistoryClicked a => handleSelect a
  | ExportPDFClicked => handleExportPDF
  | ExportTXTClicked => handleExportTXT
  end.

Fixpoint runSession (evs : list Event) (s : State) : State :=
  match evs with
  | [] => s
  | ev :: evs' => runSession evs' (stateAfter (handler ev) s)
  end.

(** The clock readings of the analysis runs of a session that create a
    record: those started with a file held and whose read succeeds. *)
Fixpoint recordClocks (evs : list Event) (s : State) : list Z :=
  match evs with
  | [] => []
  | ev :: evs' =>
      let rest := recordClocks evs' (stateAfter (handler ev) s) in
      match ev, uploadedFile s with
      | AnalyzeClicked w, Some _ =>
          match readError w with
          | None => dateNow w :: rest
          | Some _ => rest
          end
      | _, _ => rest
      end
  end.

(** ** Vocabulary of the properties *)

(** The record that a successful run creates for file [f] in world [w]. *)
Definition recordOf (w : World) (f : File) : Analysis :=
  {| id := JS.toString (dateNow w);
     filename := name f;
     date := dateLocaleString w;
     content := mockAnalysis f (fileText f);
     originalText := fileText f |}.

(** A record reports [words] words and [lines] lines when its summary is the
    template filled in with its own file name and these two numbers. *)
Definition reportsCounts (r : Analysis) (words lines : Z) : Prop :=
  content r = analysisTemplate (filename r) words lines.

(** Number of occurrences of a code unit in a string. *)
Fixpoint countChar (c : ascii) (s : string) : nat :=
  match s with
  | EmptyString => 0
  | String x s' => (if Ascii.eqb x c then 1 else 0) + countChar c s'
  end.

(** The segments of a string cut at every code unit that satisfies [p]. *)
Fixpoint segments_from (p : ascii -> bool) (cur s : string) : list string :=
  match s with
  | EmptyString => [cur]
  | String c s' =>
      if p c then cur :: segments_from p "" s'
      else segments_from p (cur ++ String c "") s'
  end.

Definition segmentsAt (p : ascii -> bool) (s : string) : list string :=
  segments_from p "" s.

(** No code unit of the string is [c]. *)
Fixpoint freeOf (c : ascii) (s : string) : Prop :=
  match s with
  | EmptyString => True
  | String x s' => x <> c /\ freeOf c s'
  end.

(** *** The specification's reading of the two counts

    These follow the words of the specification, not the source: "word count
    (split on whitespace)" and "line count (split on line breaks)". *)

(** White space among the ASCII code units: tab, line feed, vertical tab,
    form feed, carriage return and space. *)
Definition spec_isWhitespace (c : ascii) : bool :=
  match nat_of_ascii c with
  | 9 | 10 | 11 | 12 | 13 | 32 => true
  | _ => false
  end.

(** The whitespace-separated tokens: the maximal runs without white space. *)
Fixpoint spec_tokens_from (cur s : string) : list string :=
  match s with
  | EmptyString => match cur with EmptyString => [] | _ => [cur] end
  | String c s' =>
      if spec_isWhitespace c
      then match cur with
           | EmptyString => spec_tokens_from "" s'
           | _ => cur :: spec_tokens_from "" s'
           end
      else spec_tokens_from (cur ++ String c "") s'
  end.

Definition spec_whitespaceTokens (s : string) : list string :=
  spec_tokens_from "" s.

(** The segments between white-space code units, empty ones included. *)
Definition spec_whitespaceSegments (s : string) : list string :=
  segmentsAt spec_isWhitespace s.

(** The segments between line breaks. *)
Definition spec_lineSegments (s : string) : list string :=
  segmentsAt (Ascii.eqb LF) s.

(** ** Sample inputs *)

Definition actFile : File := {| name := "act.txt"; fileText := "a b c" |}.

(** A file whose text is [a], a tab, [b]. *)
Definition tabbedFile : File :=
  {| name := "tabbed.txt"; fileText := String "a" (String TAB "b") |}.

Definition emptyFile : File := {| name := "empty.txt"; fileText := "" |}.

Definition clockAt (t : Z) : World :=
  {| dateNow := t; dateLocaleString := "11/14/2023, 10:13:20 PM";
     readError := None |}.

Definition unreadableAt (t : Z) : World :=
  {| dateNow := t; dateLocaleString := "11/14/2023, 10:13:20 PM";
     readError := Some "NotReadableError" |}.

(** A fresh component in which [f] has been picked. *)
Definition holding (f : File) : State :=
  {| uploadedFile := Some f; analyses := []; selectedAnalysis := None;
     isAnalyzing := false |}.

(** ** What the rendered page offers

    The JSX decides which controls exist: the file input only while no file
    is held, the Analyze and Remove buttons only while one is, Analyze
    disabled while [isAnalyzing], the two export buttons only with a record
    selected, and one history button per record of [analyses]. *)

Definition Analysis_eqb (a b : Analysis) : bool :=
  String.eqb (id a) (id b) && String.eqb (filename a) (filename b)
  && String.eqb (date a) (date b) && String.eqb (content a) (content b)
  && String.eqb (originalText a) (originalText b).

Definition offered (s : State) (ev : Event) : bool :=
  match ev with
  | FileChosen _ =>
      match uploadedFile s with None => true | Some _ => false end
  | AnalyzeClicked _ =>
      match uploadedFile s with
      | Some _ => negb (isAnalyzing s)
      | None => false
      end
  | RemoveClicked =>
      match uploadedFile s with Some _ => true | None => false end
  | HistoryClicked a => existsb (Analysis_eqb a) (analyses s)
  | ExportPDFClicked | ExportTXTClicked =>
      match selectedAnalysis s with Some _ => true | None => false end
  end.

(** A session in which every event comes from a control on the page. *)
Fixpoint offeredSession (evs : list Event) (s : State) : bool :=
  match evs with
  | [] => true
  | ev :: evs' =>
      offered s ev && offeredSession evs' (stateAfter (handler ev) s)
  end.

(** [selectedAnalysis?.id === analysis.id], the test that highlights a
    history entry. *)
Definition highlighted (s : State) (analysis : Analysis) : bool :=
  match selectedAnalysis s with
  | Some selected => String.eqb (id selected) (id analysis)
  | None => false
  end.

Definition highlightedEntries (s : State) : list Analysis :=
  filter (highlighted s) (analyses s).

(** The selection is empty together with the history, or else is one of
    the records of the history. *)
Definition selectionSound (s : State) : Prop :=
  match selectedAnalysis s with
  | None => analyses s = []
  | Some r => In r (analyses s)
  end.

(** ** An analysis in flight

    [handleAnalyze] is suspended at its [await]: what runs before it, and
    what runs once the read has settled, with the values of [uploadedFile]
    and [analyses] that the handler closed over when it was clicked. *)

Record Pending : Type := mkPending {
  heldAtClick : File;
  historyAtClick : list Analysis
}.

Definition handleAnalyze_begin (s : State) : option Pending * State :=
  match uploadedFile s with
  | None => (None, s)
  | Some file =>
      (Some {| heldAtClick := file; historyAtClick := analyses s |},
       stateAfter (setIsAnalyzing true) s)
  end.

Definition handleAnalyze_resume (w : World) (p : Pending) : M unit :=
  tryCatchFinally
    (fileContent <- await (File_text w (heldAtClick p)) ;;
     let newAnalysis :=
       {| id := JS.toString (dateNow w);
          filename := name (heldAtClick p);
          date := dateLocaleString w;
          content := mockAnalysis (heldAtClick p) fileContent;
          originalText := fileContent |} in
     setAnalyses (newAnalysis :: historyAtClick p) ;;
     setSelectedAnalysis (Some newAnalysis))
    (fun error => emit (ConsoleError "Analysis failed:" error))
    (setIsAnalyzing false).

Definition isAnalyzeClick (ev : Event) : bool :=
  match ev with AnalyzeClicked _ => true | _ => false end.

(** A record whose summary reports the counts of its own original text. *)
Definition selfConsistent (r : Analysis) : Prop :=
  reportsCounts r
    (Z.of_nat (S (countChar SP (originalText r))))
    (Z.of_nat (S (countChar LF (originalText r)))).

(** ** Strings, splitting and decimal numerals *)

Section StringFacts.

Lemma append_cancel_l (s a b : string) :
  (s ++ a = s ++ b)%string -> a = b.
Proof.
  induction s as [|c s IH]; simpl; intros H.
  - exact H.
  - injection H as H. auto.
Qed.

(** A marker [String c m] that follows a [c]-free string is found at one
    place only. *)
Lemma marker_unique (c : ascii) (m : string) :
  forall d d' r r',
    freeOf c d -> freeOf c d' ->
    (d ++ String c m ++ r = d' ++ String c m ++ r')%string ->
    d = d' /\ r = r'.
Proof.
  induction d as [|x d IH]; intros [|x' d'] r r' Hd Hd' H; simpl in *.
  - injection H as H. apply append_cancel_l in H. auto.
  - injection H as Hc _. destruct Hd' as [Hx _]. congruence.
  - injection H as Hc _. destruct Hd as [Hx _]. congruence.
  - injection H as Hx H. destruct Hd as [_ Hd], Hd' as [_ Hd'].
    destruct (IH d' r r' Hd Hd' H) as [-> ->]. subst. auto.
Qed.

Lemma string_of_uint_freeOf_SP (d : Decimal.uint) :
  freeOf SP (NilEmpty.string_of_uint d).
Proof.
  induction d; simpl; auto; split; auto; discriminate.
Qed.

Lemma toString_freeOf_SP (n : Z) : freeOf SP (JS.toString n).
Proof.
  unfold JS.toString. destruct (Z.to_int n) as [d|d]; simpl.
  - apply string_of_uint_freeOf_SP.
  - split; [discriminate | apply string_of_uint_freeOf_SP].
Qed.

Lemma toString_inj (n m : Z) : JS.toString n = JS.toString m -> n = m.
Proof.
  unfold JS.toString. intros H.
  apply DecimalZ.to_int_inj.
  assert (E : Some (Z.to_int n) = Some (Z.to_int m)).
  { rewrite <- (NilEmpty.isi (Z.to_int n)), <- (NilEmpty.isi (Z.to_int m)).
    now rewrite H. }
  now injection E.
Qed.

(** The two numbers of a filled-in template can be read back from it. *)
Lemma analysisTemplate_inj (fname : string) (w l w' l' : Z) :
  analysisTemplate fname w l = analysisTemplate fname w' l' ->
  w = w' /\ l = l'.
Proof.
  unfold analysisTemplate. intros H.
  do 6 apply append_cancel_l in H.
  apply (marker_unique SP) in H; try apply toString_freeOf_SP.
  destruct H as [Hw H]. apply toString_inj in Hw.
  apply (marker_unique SP) in H; try apply toString_freeOf_SP.
  destruct H as [Hl _]. apply toString_inj in Hl. auto.
Qed.

Lemma segments_from_length (p : ascii -> bool) :
  forall s cur,
    List.length (segments_from p cur s)
    = S (List.length (filter p (list_ascii_of_string s))).
Proof.
  induction s as [|c s IH]; intros cur; simpl.
  - reflexivity.
  - destruct (p c); simpl; rewrite IH; reflexivity.
Qed.

(** Splitting on a separator of one code unit cuts at each occurrence. *)
Lemma split_from_single (a : ascii) :
  forall s cur,
    JS.split_from (String a "") 0 cur s = segments_from (Ascii.eqb a) cur s.
Proof.
  induction s as [|c s IH]; intros cur.
  - reflexivity.
  - cbn [JS.split_from segments_from prefix String.length Nat.sub].
    destruct (ascii_dec a c) as [->|Hne].
    + rewrite Ascii.eqb_refl.
      destruct s; cbn [prefix]; rewrite IH; reflexivity.
    + destruct (Ascii.eqb_spec a c) as [E|_]; [contradiction|].
      apply IH.
Qed.

Lemma split_single (a : ascii) (s : string) :
  JS.split (String a "") s = segmentsAt (Ascii.eqb a) s.
Proof. apply split_from_single. Qed.

Lemma filter_eqb_countChar (a : ascii) (s : string) :
  List.length (filter (Ascii.eqb a) (list_ascii_of_string s)) = countChar a s.
Proof.
  induction s as [|c s IH]; simpl; [reflexivity|].
  rewrite (Ascii.eqb_sym a c). destruct (Ascii.eqb c a); simpl; auto.
Qed.

(** [s.split(a).length] is one more than the number of [a]s in [s]. *)
Lemma split_single_length (a : ascii) (s : string) :
  JS.length (JS.split (String a "") s) = Z.of_nat (S (countChar a s)).
Proof.
  unfold JS.length. rewrite split_single. unfold segmentsAt.
  rewrite segments_from_length, filter_eqb_countChar. reflexivity.
Qed.

End StringFacts.

(** ** The three ways a run of [handleAnalyze] goes *)

Section AnalyzeRuns.

Variable w : World.

Lemma handleAnalyze_no_file (s : State) :
  uploadedFile s = None ->
  handleAnalyze w s = (Resolved tt, s, []).
Proof.
  intros H. unfold handleAnalyze. rewrite H. reflexivity.
Qed.

Lemma handleAnalyze_rejected (s : State) (f : File) (e : string) :
  uploadedFile s = Some f ->
  readError w = Some e ->
  handleAnalyze w s =
    (Resolved tt,
     {| uploadedFile := uploadedFile s; analyses := analyses s;
        selectedAnalysis := selectedAnalysis s; isAnalyzing := false |},
     [ConsoleError "Analysis failed:" e]).
Proof.
  intros Hf He. destruct s as [u h sel b]. simpl in Hf. subst u.
  unfold handleAnalyze, bind, tryCatchFinally, await, File_text.
  rewrite He. reflexivity.
Qed.

Lemma handleAnalyze_resolved (s : State) (f : File) :
  uploadedFile s = Some f ->
  readError w = None ->
  handleAnalyze w s =
    (Resolved tt,
     {| uploadedFile := uploadedFile s;
        analyses := recordOf w f :: analyses s;
        selectedAnalysis := Some (recordOf w f);
        isAnalyzing := false |},
     []).
Proof.
  intros Hf He. destruct s as [u h sel b]. simpl in Hf. subst u.
  unfold handleAnalyze, bind, tryCatchFinally, await, File_text.
  rewrite He. reflexivity.
Qed.

End AnalyzeRuns.

Lemma recordOf_reports (w : World) (f : File) :
  reportsCounts (recordOf w f)
    (JS.length (JS.split " " (fileText f)))
    (JS.length (JS.split nl (fileText f))).
Proof. reflexivity. Qed.

(** What a record reports is determined by its summary. *)
Lemma reportsCounts_unique (r : Analysis) (w l w' l' : Z) :
  reportsCounts r w l -> reportsCounts r w' l' -> w = w' /\ l = l'.
Proof.
  unfold reportsCounts. intros H H'. rewrite H in H'.
  exact (analysisTemplate_inj _ _ _ _ _ H').
Qed.

(** ** Sessions and identifiers *)

Lemma NoDup_map_injective {A B : Type} (g : A -> B) (l : list A) :
  (forall x y, g x = g y -> x = y) -> NoDup l -> NoDup (map g l).
Proof.
  intros Hinj Hl. induction Hl as [|x l Hx _ IH]; simpl; constructor; auto.
  intros Hin. apply in_map_iff in Hin. destruct Hin as [y [Hy Hin]].
  apply Hinj in Hy. subst. contradiction.
Qed.

(** The identifiers in the history are the clock readings of the runs that
    created a record, newest first, in front of those already there. *)
Lemma runSession_ids (evs : list Event) :
  forall s,
    map id (analyses (runSession evs s))
    = rev (map JS.toString (recordClocks evs s)) ++ map id (analyses s).
Proof.
  induction evs as [|ev evs IH]; intros s.
  - reflexivity.
  - cbn [runSession recordClocks]. rewrite IH.
    destruct ev as [file|w| |a| |]; cbn [handler].
    + destruct file; reflexivity.
    + unfold stateAfter.
      destruct (uploadedFile s) as [f|] eqn:Hf.
      * destruct (readError w) as [e|] eqn:He.
        -- rewrite (handleAnalyze_rejected w s f e Hf He). reflexivity.
        -- rewrite (handleAnalyze_resolved w s f Hf He).
           cbn [fst snd analyses map rev recordOf id].
           rewrite <- app_assoc. reflexivity.
      * rewrite (handleAnalyze_no_file w s Hf). reflexivity.
    + reflexivity.
    + reflexivity.
    + unfold stateAfter, handleExportPDF.
      destruct (selectedAnalysis s); reflexivity.
    + unfold stateAfter, handleExportTXT.
      destruct (selectedAnalysis s); reflexivity.
Qed.

(** ** Properties of the handlers *)

(** C1, as the code has it: for a held file whose text is [c], a successful
    run of [handleAnalyze] creates and selects a record whose summary
    reports, as word count, the number of segments of [c] between single
    space characters (one more than the number of spaces in [c]) and, as line
    count, the number of segments between line feeds (one more than the
    number of line feeds in [c]). *)
Theorem handleAnalyze_reports_space_and_linefeed_segments
    (w : World) (s : State) (f : File) :
  uploadedFile s = Some f ->
  readError w = None ->
  exists r,
    selectedAnalysis (stateAfter (handleAnalyze w) s) = Some r
    /\ hd_error (analyses (stateAfter (handleAnalyze w) s)) = Some r
    /\ originalText r = fileText f
    /\ reportsCounts r
         (Z.of_nat (List.length (segmentsAt (Ascii.eqb SP) (fileText f))))
         (Z.of_nat (List.length (segmentsAt (Ascii.eqb LF) (fileText f))))
    /\ reportsCounts r
         (Z.of_nat (S (countChar SP (fileText f))))
         (Z.of_nat (S (countChar LF (fileText f)))).
Proof.
  intros Hf He. exists (recordOf w f).
  unfold stateAfter. rewrite (handleAnalyze_resolved w s f Hf He).
  cbn [fst snd selectedAnalysis analyses hd_error].
  repeat split.
  - pose proof (recordOf_reports w f) as H.
    change " " with (String SP "") in H. unfold nl in H.
    rewrite !split_single in H. exact H.
  - pose proof (recordOf_reports w f) as H.
    change " " with (String SP "") in H. unfold nl in H.
    rewrite !split_single_length in H. exact H.
Qed.

Lemma handleAnalyze_reports_space_and_linefeed_segments_witness :
  exists r,
    selectedAnalysis (stateAfter (handleAnalyze (clockAt 1700000000000))
                        (holding tabbedFile)) = Some r
    /\ hd_error (analyses (stateAfter (handleAnalyze (clockAt 1700000000000))
                             (holding tabbedFile))) = Some r
    /\ originalText r = fileText tabbedFile
    /\ reportsCounts r
         (Z.of_nat (List.length (segmentsAt (Ascii.eqb SP) (fileText tabbedFile))))
         (Z.of_nat (List.length (segmentsAt (Ascii.eqb LF) (fileText tabbedFile))))
    /\ reportsCounts r
         (Z.of_nat (S (countChar SP (fileText tabbedFile))))
         (Z.of_nat (S (countChar LF (fileText tabbedFile)))).
Proof.
  apply (handleAnalyze_reports_space_and_linefeed_segments
           (clockAt 1700000000000) (holding tabbedFile) tabbedFile);
    reflexivity.
Defined.

(** C1, as stated, fails: for the text [a], tab, [b], which has two
    whitespace-separated tokens (and two segments between white space), the
    summary reports one word, and so does not report the number of
    whitespace-separated tokens. *)
Lemma handleAnalyze_word_count_is_not_whitespace_tokens :
  exists r,
    selectedAnalysis (stateAfter (handleAnalyze (clockAt 1700000000000))
                        (holding tabbedFile)) = Some r
    /\ List.length (spec_whitespaceTokens (fileText tabbedFile)) = 2%nat
    /\ List.length (spec_whitespaceSegments (fileText tabbedFile)) = 2%nat
    /\ List.length (spec_lineSegments (fileText tabbedFile)) = 1%nat
    /\ reportsCounts r 1 1
    /\ ~ reportsCounts r
           (Z.of_nat (List.length (spec_whitespaceTokens (fileText tabbedFile))))
           (Z.of_nat (List.length (spec_lineSegments (fileText tabbedFile))))
    /\ ~ reportsCounts r
           (Z.of_nat (List.length (spec_whitespaceSegments (fileText tabbedFile))))
           (Z.of_nat (List.length (spec_lineSegments (fileText tabbedFile)))).
Proof.
  eexists. split; [reflexivity|].
  assert (R : reportsCounts (recordOf (clockAt 1700000000000) tabbedFile) 1 1)
    by reflexivity.
  repeat split; try reflexivity.
  - intros H. destruct (reportsCounts_unique _ _ _ _ _ R H) as [E _].
    vm_compute in E. discriminate E.
  - intros H. destruct (reportsCounts_unique _ _ _ _ _ R H) as [E _].
    vm_compute in E. discriminate E.
Qed.

(** C2: when the read of the held file is rejected, [handleAnalyze] catches
    the error and logs it, and leaves the history, the selected record and
    the held file as they were, with the in-progress flag cleared. *)
Theorem handleAnalyze_read_failure
    (w : World) (s : State) (f : File) (e : string) :
  uploadedFile s = Some f ->
  readError w = Some e ->
  fst (fst (handleAnalyze w s)) = Resolved tt
  /\ effectsOf (handleAnalyze w) s = [ConsoleError "Analysis failed:" e]
  /\ analyses (stateAfter (handleAnalyze w) s) = analyses s
  /\ selectedAnalysis (stateAfter (handleAnalyze w) s) = selectedAnalysis s
  /\ uploadedFile (stateAfter (handleAnalyze w) s) = uploadedFile s
  /\ isAnalyzing (stateAfter (handleAnalyze w) s) = false.
Proof.
  intros Hf He. unfold stateAfter, effectsOf.
  rewrite (handleAnalyze_rejected w s f e Hf He).
  repeat split.
Qed.

Lemma handleAnalyze_read_failure_witness :
  fst (fst (handleAnalyze (unreadableAt 1700000000000) (holding actFile)))
    = Resolved tt
  /\ effectsOf (handleAnalyze (unreadableAt 1700000000000)) (holding actFile)
     = [ConsoleError "Analysis failed:" "NotReadableError"]
  /\ analyses (stateAfter (handleAnalyze (unreadableAt 1700000000000))
                 (holding actFile)) = analyses (holding actFile)
  /\ selectedAnalysis (stateAfter (handleAnalyze (unreadableAt 1700000000000))
                         (holding actFile)) = selectedAnalysis (holding actFile)
  /\ uploadedFile (stateAfter (handleAnalyze (unreadableAt 1700000000000))
                     (holding actFile)) = uploadedFile (holding actFile)
  /\ isAnalyzing (stateAfter (handleAnalyze (unreadableAt 1700000000000))
                    (holding actFile)) = false.
Proof.
  apply (handleAnalyze_read_failure (unreadableAt 1700000000000)
           (holding actFile) actFile "NotReadableError"); reflexivity.
Defined.

(** C3: a successful run of [handleAnalyze] with a held file puts exactly
    one new record in front of the history: the length grows by one and the
    records that were there follow it, in their order and unchanged. *)
Theorem handleAnalyze_prepends_one_record
    (w : World) (s : State) (f : File) :
  uploadedFile s = Some f ->
  readError w = None ->
  exists r,
    analyses (stateAfter (handleAnalyze w) s) = r :: analyses s
    /\ List.length (analyses (stateAfter (handleAnalyze w) s))
       = S (List.length (analyses s))
    /\ tl (analyses (stateAfter (handleAnalyze w) s)) = analyses s.
Proof.
  intros Hf He. exists (recordOf w f).
  unfold stateAfter. rewrite (handleAnalyze_resolved w s f Hf He).
  repeat split.
Qed.

Lemma handleAnalyze_prepends_one_record_witness :
  exists r,
    analyses (stateAfter (handleAnalyze (clockAt 1700000000000))
                (holding actFile)) = r :: analyses (holding actFile)
    /\ List.length (analyses (stateAfter (handleAnalyze (clockAt 1700000000000))
                               (holding actFile)))
       = S (List.length (analyses (holding actFile)))
    /\ tl (analyses (stateAfter (handleAnalyze (clockAt 1700000000000))
                       (holding actFile))) = analyses (holding actFile).
Proof.
  apply (handleAnalyze_prepends_one_record (clockAt 1700000000000)
           (holding actFile) actFile); reflexivity.
Defined.

(** C4: with a record [r] selected, [handleExportTXT] clicks one download
    anchor named [<r.filename>_analysis.txt] whose blob has type
    [text/plain] and holds exactly the summary text [r.content]; the
    component state is not touched. *)
Theorem handleExportTXT_artifact (s : State) (r : Analysis) :
  selectedAnalysis s = Some r ->
  effectsOf handleExportTXT s =
    [AnchorClick {| blobParts := content r; blobType := "text/plain" |}
                 (filename r ++ "_analysis.txt")]
  /\ stateAfter handleExportTXT s = s.
Proof.
  intros H. unfold effectsOf, stateAfter, handleExportTXT. rewrite H.
  split; reflexivity.
Qed.

Lemma handleExportTXT_artifact_witness :
  effectsOf handleExportTXT
    (stateAfter (handleAnalyze (clockAt 1700000000000)) (holding actFile)) =
    [AnchorClick
       {| blobParts := content (recordOf (clockAt 1700000000000) actFile);
          blobType := "text/plain" |}
       "act.txt_analysis.txt"]
  /\ stateAfter handleExportTXT
       (stateAfter (handleAnalyze (clockAt 1700000000000)) (holding actFile))
     = stateAfter (handleAnalyze (clockAt 1700000000000)) (holding actFile).
Proof.
  apply (handleExportTXT_artifact
           (stateAfter (handleAnalyze (clockAt 1700000000000)) (holding actFile))
           (recordOf (clockAt 1700000000000) actFile)).
  reflexivity.
Defined.

(** C5: a successful run of [handleAnalyze] on a file whose text is
    ["a b c"] creates and selects a record whose summary reports 3 words and
    1 line. *)
Theorem handleAnalyze_a_b_c (w : World) (s : State) (f : File) :
  uploadedFile s = Some f ->
  fileText f = "a b c" ->
  readError w = None ->
  exists r,
    selectedAnalysis (stateAfter (handleAnalyze w) s) = Some r
    /\ hd_error (analyses (stateAfter (handleAnalyze w) s)) = Some r
    /\ reportsCounts r 3 1.
Proof.
  intros Hf Hc He. exists (recordOf w f).
  unfold stateAfter. rewrite (handleAnalyze_resolved w s f Hf He).
  repeat split.
  unfold reportsCounts, recordOf, mockAnalysis. cbn [content filename].
  rewrite Hc. reflexivity.
Qed.

Lemma handleAnalyze_a_b_c_witness :
  exists r,
    selectedAnalysis (stateAfter (handleAnalyze (clockAt 1700000000000))
                        (holding actFile)) = Some r
    /\ hd_error (analyses (stateAfter (handleAnalyze (clockAt 1700000000000))
                             (holding actFile))) = Some r
    /\ reportsCounts r 3 1.
Proof.
  apply (handleAnalyze_a_b_c (clockAt 1700000000000) (holding actFile) actFile);
    reflexivity.
Defined.

(** C6: [handleAnalyze] with no file held does nothing: it returns at once,
    with the whole state (history, selected record, in-progress flag, held
    file) as it was and no effect performed. *)
Theorem handleAnalyze_without_file (w : World) (s : State) :
  uploadedFile s = None ->
  stateAfter (handleAnalyze w) s = s
  /\ analyses (stateAfter (handleAnalyze w) s) = analyses s
  /\ selectedAnalysis (stateAfter (handleAnalyze w) s) = selectedAnalysis s
  /\ isAnalyzing (stateAfter (handleAnalyze w) s) = isAnalyzing s
  /\ effectsOf (handleAnalyze w) s = [].
Proof.
  intros H. unfold stateAfter, effectsOf.
  rewrite (handleAnalyze_no_file w s H). repeat split.
Qed.

Lemma handleAnalyze_without_file_witness :
  stateAfter (handleAnalyze (clockAt 1700000000000)) initialState = initialState
  /\ analyses (stateAfter (handleAnalyze (clockAt 1700000000000)) initialState)
     = analyses initialState
  /\ selectedAnalysis
       (stateAfter (handleAnalyze (clockAt 1700000000000)) initialState)
     = selectedAnalysis initialState
  /\ isAnalyzing (stateAfter (handleAnalyze (clockAt 1700000000000)) initialState)
     = isAnalyzing initialState
  /\ effectsOf (handleAnalyze (clockAt 1700000000000)) initialState = [].
Proof.
  apply (handleAnalyze_without_file (clockAt 1700000000000) initialState).
  reflexivity.
Defined.

(** C7: the identifiers of the records in the history are meant to be
    pairwise distinct; the page keys its history entries by them and
    highlights the entry whose identifier is that of the selection.  The
    code takes the identifier from the clock alone, so in a session whose
    events all come from controls the page offers, two successful runs that
    read the same clock value leave two records with the same identifier in
    the history, and both entries are highlighted. *)
Lemma session_ids_repeat_on_equal_clock :
  offeredSession
    [FileChosen (Some actFile);
     AnalyzeClicked (clockAt 1700000000000);
     AnalyzeClicked (clockAt 1700000000000)]
    initialState = true
  /\ map id (analyses (runSession
       [FileChosen (Some actFile);
        AnalyzeClicked (clockAt 1700000000000);
        AnalyzeClicked (clockAt 1700000000000)]
       initialState))
     = ["1700000000000"; "1700000000000"]
  /\ ~ NoDup (map id (analyses (runSession
        [FileChosen (Some actFile);
         AnalyzeClicked (clockAt 1700000000000);
         AnalyzeClicked (clockAt 1700000000000)]
        initialState)))
  /\ List.length (highlightedEntries (runSession
        [FileChosen (Some actFile);
         AnalyzeClicked (clockAt 1700000000000);
         AnalyzeClicked (clockAt 1700000000000)]
        initialState)) = 2%nat.
Proof.
  split; [reflexivity|]. split; [reflexivity|]. split; [|reflexivity].
  intros H. inversion H as [|x l Hnotin _]; subst.
  apply Hnotin. left. reflexivity.
Qed.

(** C8: for every state in which the page offers the file input, and every
    file [f], [handleFileUpload] with [f] followed by [handleRemove] gives
    the state back: the round trip is the identity.  From any state
    whatsoever it leaves the held-file reference empty and the history, the
    selection and the in-progress flag as they were. *)
Theorem upload_then_remove (s : State) (f : File) :
  (offered s (FileChosen (Some f)) = true ->
   stateAfter handleRemove (stateAfter (handleFileUpload (Some f)) s) = s)
  /\ uploadedFile (stateAfter handleRemove
                     (stateAfter (handleFileUpload (Some f)) s)) = None
  /\ analyses (stateAfter handleRemove
                 (stateAfter (handleFileUpload (Some f)) s)) = analyses s
  /\ selectedAnalysis (stateAfter handleRemove
                         (stateAfter (handleFileUpload (Some f)) s))
     = selectedAnalysis s
  /\ isAnalyzing (stateAfter handleRemove
                    (stateAfter (handleFileUpload (Some f)) s))
     = isAnalyzing s.
Proof.
  destruct s as [u h sel b]. cbn. split.
  - destruct u; [discriminate | reflexivity].
  - repeat split.
Qed.

Lemma upload_then_remove_witness :
  stateAfter handleRemove
    (stateAfter (handleFileUpload (Some tabbedFile))
       (stateAfter handleRemove
          (stateAfter (handleAnalyze (clockAt 1700000000000))
             (holding actFile))))
  = stateAfter handleRemove
      (stateAfter (handleAnalyze (clockAt 1700000000000)) (holding actFile)).
Proof.
  apply (proj1 (upload_then_remove
                  (stateAfter handleRemove
                     (stateAfter (handleAnalyze (clockAt 1700000000000))
                        (holding actFile)))
                  tabbedFile)).
  reflexivity.
Defined.

(** C9: for a held file whose text is the empty string, a successful run of
    [handleAnalyze] creates and selects a record whose summary reports 1
    word and 1 line: splitting the empty string gives one empty segment. *)
Theorem handleAnalyze_empty_text (w : World) (s : State) (f : File) :
  uploadedFile s = Some f ->
  fileText f = "" ->
  readError w = None ->
  JS.split " " (fileText f) = [""]
  /\ JS.split nl (fileText f) = [""]
  /\ exists r,
       selectedAnalysis (stateAfter (handleAnalyze w) s) = Some r
       /\ hd_error (analyses (stateAfter (handleAnalyze w) s)) = Some r
       /\ reportsCounts r 1 1.
Proof.
  intros Hf Hc He. rewrite Hc. repeat split.
  exists (recordOf w f).
  unfold stateAfter. rewrite (handleAnalyze_resolved w s f Hf He).
  repeat split.
  unfold reportsCounts, recordOf, mockAnalysis. cbn [content filename].
  rewrite Hc. reflexivity.
Qed.

Lemma handleAnalyze_empty_text_witness :
  JS.split " " (fileText emptyFile) = [""]
  /\ JS.split nl (fileText emptyFile) = [""]
  /\ exists r,
       selectedAnalysis (stateAfter (handleAnalyze (clockAt 1700000000000))
                           (holding emptyFile)) = Some r
       /\ hd_error (analyses (stateAfter (handleAnalyze (clockAt 1700000000000))
                                (holding emptyFile))) = Some r
       /\ reportsCounts r 1 1.
Proof.
  apply (handleAnalyze_empty_text (clockAt 1700000000000)
           (holding emptyFile) emptyFile); reflexivity.
Defined.

(** C10: a successful run of [handleAnalyze] leaves the held file in place,
    and a second successful run on it puts a second record in front of the
    first, with the same file name and the same summary text. *)
Theorem handleAnalyze_twice (w1 w2 : World) (s : State) (f : File) :
  uploadedFile s = Some f ->
  readError w1 = None ->
  readError w2 = None ->
  uploadedFile (stateAfter (handleAnalyze w1) s) = Some f
  /\ uploadedFile (stateAfter (handleAnalyze w2)
                     (stateAfter (handleAnalyze w1) s)) = Some f
  /\ exists r1 r2,
       analyses (stateAfter (handleAnalyze w1) s) = r1 :: analyses s
       /\ analyses (stateAfter (handleAnalyze w2)
                      (stateAfter (handleAnalyze w1) s))
          = r2 :: r1 :: analyses s
       /\ filename r1 = name f
       /\ filename r2 = filename r1
       /\ content r2 = content r1.
Proof.
  intros Hf H1 H2.
  assert (E1 : stateAfter (handleAnalyze w1) s =
               {| uploadedFile := Some f;
                  analyses := recordOf w1 f :: analyses s;
                  selectedAnalysis := Some (recordOf w1 f);
                  isAnalyzing := false |}).
  { unfold stateAfter. rewrite (handleAnalyze_resolved w1 s f Hf H1).
    cbn [fst snd]. rewrite Hf. reflexivity. }
  rewrite E1. unfold stateAfter.
  rewrite (handleAnalyze_resolved w2
             {| uploadedFile := Some f;
                analyses := recordOf w1 f :: analyses s;
                selectedAnalysis := Some (recordOf w1 f);
                isAnalyzing := false |} f eq_refl H2).
  cbn [fst snd uploadedFile analyses].
  split; [reflexivity|]. split; [reflexivity|].
  exists (recordOf w1 f), (recordOf w2 f). repeat split.
Qed.

Lemma handleAnalyze_twice_witness :
  uploadedFile (stateAfter (handleAnalyze (clockAt 1700000000000))
                  (holding actFile)) = Some actFile
  /\ uploadedFile (stateAfter (handleAnalyze (clockAt 1700000000042))
                     (stateAfter (handleAnalyze (clockAt 1700000000000))
                        (holding actFile))) = Some actFile
  /\ exists r1 r2,
       analyses (stateAfter (handleAnalyze (clockAt 1700000000000))
                   (holding actFile)) = r1 :: analyses (holding actFile)
       /\ analyses (stateAfter (handleAnalyze (clockAt 1700000000042))
                      (stateAfter (handleAnalyze (clockAt 1700000000000))
                         (holding actFile)))
          = r2 :: r1 :: analyses (holding actFile)
       /\ filename r1 = name actFile
       /\ filename r2 = filename r1
       /\ content r2 = content r1.
Proof.
  apply (handleAnalyze_twice (clockAt 1700000000000) (clockAt 1700000000042)
           (holding actFile) actFile); reflexivity.
Defined.

(** ** Further properties: sessions *)

(** One event either leaves the history alone or is a successful analysis
    run, which puts its record in front and selects it. *)
Lemma handler_history (ev : Event) (s : State) :
  (analyses (stateAfter (handler ev) s) = analyses s
   /\ (selectedAnalysis (stateAfter (handler ev) s) = selectedAnalysis s
       \/ exists a, ev = HistoryClicked a
                    /\ selectedAnalysis (stateAfter (handler ev) s) = Some a)
   /\ recordClocks [ev] s = [])
  \/ (exists w f,
        ev = AnalyzeClicked w /\ uploadedFile s = Some f
        /\ readError w = None
        /\ analyses (stateAfter (handler ev) s) = recordOf w f :: analyses s
        /\ selectedAnalysis (stateAfter (handler ev) s) = Some (recordOf w f)
        /\ recordClocks [ev] s = [dateNow w]).
Proof.
  destruct ev as [file|w| |a| |]; cbn [handler recordClocks].
  - left. destruct file; repeat split; left; reflexivity.
  - unfold stateAfter.
    destruct (uploadedFile s) as [f|] eqn:Hf.
    + destruct (readError w) as [e|] eqn:He.
      * left. rewrite (handleAnalyze_rejected w s f e Hf He).
        repeat split. left. reflexivity.
      * right. exists w, f.
        rewrite (handleAnalyze_resolved w s f Hf He). repeat split; auto.
    + left. rewrite (handleAnalyze_no_file w s Hf).
      repeat split. left. reflexivity.
  - left. repeat split. left. reflexivity.
  - left. repeat split. right. exists a. split; reflexivity.
  - left. unfold stateAfter, handleExportPDF.
    destruct s as [u h [sel|] b]; repeat split; left; reflexivity.
  - left. unfold stateAfter, handleExportTXT.
    destruct s as [u h [sel|] b]; repeat split; left; reflexivity.
Qed.

Lemma recordClocks_cons (ev : Event) (evs : list Event) (s : State) :
  recordClocks (ev :: evs) s
  = recordClocks [ev] s ++ recordClocks evs (stateAfter (handler ev) s).
Proof.
  cbn [recordClocks].
  destruct ev; try reflexivity.
  destruct (uploadedFile s); try reflexivity.
  destruct (readError w); reflexivity.
Qed.

(** X1: no event removes, changes or reorders a record: after any session
    the history is the old history with the new records in front, one for
    each run that was started with a file held and whose read succeeded. *)
Theorem session_history_grows (evs : list Event) :
  forall s,
    exists fresh,
      analyses (runSession evs s) = fresh ++ analyses s
      /\ List.length fresh = List.length (recordClocks evs s).
Proof.
  induction evs as [|ev evs IH]; intros s.
  - exists []. split; reflexivity.
  - rewrite recordClocks_cons. cbn [runSession].
    destruct (IH (stateAfter (handler ev) s)) as [fresh [Hfresh Hlen]].
    destruct (handler_history ev s)
      as [[Ha [_ Hc]] | [w [f [_ [_ [_ [Ha [_ Hc]]]]]]]];
      rewrite Hc, Hfresh, Ha.
    + exists fresh. split; [reflexivity | exact Hlen].
    + exists (fresh ++ [recordOf w f]). split.
      * rewrite <- app_assoc. reflexivity.
      * rewrite length_app. cbn [List.length app]. lia.
Qed.

(** X2: every record in the history of a session started from the initial
    state reports the counts of its own original text: one more than its
    number of spaces as words, one more than its number of line feeds as
    lines, under its own file name. *)
Theorem session_records_self_consistent (evs : list Event) (r : Analysis) :
  In r (analyses (runSession evs initialState)) -> selfConsistent r.
Proof.
  assert (G : forall s,
             (forall x, In x (analyses s) -> selfConsistent x) ->
             forall x, In x (analyses (runSession evs s)) -> selfConsistent x).
  { induction evs as [|ev evs IH]; intros s Hs x Hx.
    - apply Hs. exact Hx.
    - cbn [runSession] in Hx. apply (IH (stateAfter (handler ev) s)); auto.
      intros y Hy.
      destruct (handler_history ev s)
        as [[Ha _] | [w [f [_ [_ [_ [Ha _]]]]]]]; rewrite Ha in Hy.
      + apply Hs. exact Hy.
      + destruct Hy as [<- | Hy]; [|apply Hs; exact Hy].
        unfold selfConsistent. cbn [originalText recordOf].
        pose proof (recordOf_reports w f) as H.
        change " " with (String SP "") in H. unfold nl in H.
        rewrite !split_single_length in H. exact H. }
  apply G. intros x [].
Qed.

Lemma session_records_self_consistent_witness :
  selfConsistent (recordOf (clockAt 1700000000000) tabbedFile).
Proof.
  apply (session_records_self_consistent
           [FileChosen (Some tabbedFile); AnalyzeClicked (clockAt 1700000000000)]).
  left. reflexivity.
Defined.

(** X3: the in-progress flag is never left set: after any session started
    with the flag clear, whatever the events and whatever the reads do, the
    flag is clear. *)
Theorem session_never_leaves_flag_set (evs : list Event) :
  forall s, isAnalyzing s = false -> isAnalyzing (runSession evs s) = false.
Proof.
  induction evs as [|ev evs IH]; intros s Hs.
  - exact Hs.
  - cbn [runSession]. apply IH.
    destruct ev as [file|w| |a| |]; cbn [handler].
    + destruct file; exact Hs.
    + unfold stateAfter.
      destruct (uploadedFile s) as [f|] eqn:Hf.
      * destruct (readError w) as [e|] eqn:He.
        -- rewrite (handleAnalyze_rejected w s f e Hf He). reflexivity.
        -- rewrite (handleAnalyze_resolved w s f Hf He). reflexivity.
      * rewrite (handleAnalyze_no_file w s Hf). exact Hs.
    + exact Hs.
    + exact Hs.
    + unfold stateAfter, handleExportPDF.
      destruct (selectedAnalysis s); exact Hs.
    + unfold stateAfter, handleExportTXT.
      destruct (selectedAnalysis s); exact Hs.
Qed.

Lemma session_never_leaves_flag_set_witness :
  isAnalyzing (runSession
    [AnalyzeClicked (unreadableAt 1700000000000);
     AnalyzeClicked (clockAt 1700000000042)]
    (holding actFile)) = false.
Proof.
  apply session_never_leaves_flag_set. reflexivity.
Defined.

(** ** Further properties: what the page shows *)

Lemma Analysis_eqb_eq (a b : Analysis) : Analysis_eqb a b = true -> a = b.
Proof.
  unfold Analysis_eqb. intros H.
  repeat (apply andb_prop in H; destruct H as [H ?]).
  destruct a, b. cbn in *.
  repeat match goal with
         | E : String.eqb _ _ = true |- _ => apply String.eqb_eq in E
         end.
  subst. reflexivity.
Qed.

Lemma offered_history_click (s : State) (a : Analysis) :
  offered s (HistoryClicked a) = true -> In a (analyses s).
Proof.
  cbn [offered]. intros H. apply existsb_exists in H.
  destruct H as [x [Hin Heq]]. apply Analysis_eqb_eq in Heq. subst. exact Hin.
Qed.

Lemma handler_keeps_selectionSound (ev : Event) (s : State) :
  offered s ev = true -> selectionSound s ->
  selectionSound (stateAfter (handler ev) s).
Proof.
  intros Hoff Hs. unfold selectionSound in *.
  destruct (handler_history ev s)
    as [[Ha [[Hsel | [a [-> Hsel]]] _]] | [w [f [_ [_ [_ [Ha [Hsel _]]]]]]]];
    rewrite Ha, Hsel.
  - exact Hs.
  - apply offered_history_click. exact Hoff.
  - left. reflexivity.
Qed.

Lemma offeredSession_selectionSound (evs : list Event) :
  forall s,
    offeredSession evs s = true -> selectionSound s ->
    selectionSound (runSession evs s).
Proof.
  induction evs as [|ev evs IH]; intros s Hoff Hs.
  - exact Hs.
  - cbn [offeredSession] in Hoff. apply andb_prop in Hoff.
    destruct Hoff as [Hev Hrest]. cbn [runSession].
    apply IH; [exact Hrest|]. apply handler_keeps_selectionSound; assumption.
Qed.

(** X4: in every session from the initial state in which each event comes
    from a control the page offers, the selected record is one of the
    records of the history, and nothing is selected exactly when the history
    is empty. *)
Theorem offered_session_selection_in_history (evs : list Event) :
  offeredSession evs initialState = true ->
  match selectedAnalysis (runSession evs initialState) with
  | None => analyses (runSession evs initialState) = []
  | Some r => In r (analyses (runSession evs initialState))
  end.
Proof.
  intros H. apply (offeredSession_selectionSound evs initialState H).
  reflexivity.
Qed.

Lemma offered_session_selection_in_history_witness :
  match selectedAnalysis (runSession
          [FileChosen (Some actFile);
           AnalyzeClicked (clockAt 1700000000000);
           RemoveClicked;
           FileChosen (Some tabbedFile);
           AnalyzeClicked (clockAt 1700000000042);
           HistoryClicked (recordOf (clockAt 1700000000000) actFile);
           ExportTXTClicked]
          initialState) with
  | None => analyses (runSession
          [FileChosen (Some actFile);
           AnalyzeClicked (clockAt 1700000000000);
           RemoveClicked;
           FileChosen (Some tabbedFile);
           AnalyzeClicked (clockAt 1700000000042);
           HistoryClicked (recordOf (clockAt 1700000000000) actFile);
           ExportTXTClicked]
          initialState) = []
  | Some r => In r (analyses (runSession
          [FileChosen (Some actFile);
           AnalyzeClicked (clockAt 1700000000000);
           RemoveClicked;
           FileChosen (Some tabbedFile);
           AnalyzeClicked (clockAt 1700000000042);
           HistoryClicked (recordOf (clockAt 1700000000000) actFile);
           ExportTXTClicked]
          initialState))
  end.
Proof.
  apply offered_session_selection_in_history. vm_compute. reflexivity.
Defined.

Lemma filter_id_none (i : string) (l : list Analysis) :
  ~ In i (map id l) -> filter (fun x => String.eqb i (id x)) l = [].
Proof.
  induction l as [|x l IH]; cbn [map filter In]; intros H.
  - reflexivity.
  - destruct (String.eqb_spec i (id x)) as [E|_].
    + exfalso. apply H. left. symmetry. exact E.
    + apply IH. intros Hin. apply H. right. exact Hin.
Qed.

(** With distinct identifiers, the entries that share the identifier of a
    record of the list are that record alone. *)
Lemma filter_id_single (a : Analysis) (l : list Analysis) :
  NoDup (map id l) -> In a l ->
  filter (fun x => String.eqb (id a) (id x)) l = [a].
Proof.
  induction l as [|x l IH]; cbn [map filter In]; intros Hnd Hin.
  - contradiction.
  - inversion Hnd as [|i l' Hnotin Hnd']; subst.
    destruct Hin as [-> | Hin].
    + rewrite String.eqb_refl. f_equal. apply filter_id_none. exact Hnotin.
    + destruct (String.eqb_spec (id a) (id x)) as [E|_].
      * exfalso. apply Hnotin. rewrite <- E. apply in_map. exact Hin.
      * apply IH; assumption.
Qed.

(** X5: in a session from the initial state whose events all come from
    controls the page offers and whose record-creating runs read pairwise
    distinct clock values, the history entries that are highlighted are the
    selected record alone (none when nothing is selected). *)
Theorem offered_session_highlights_selection (evs : list Event) :
  offeredSession evs initialState = true ->
  NoDup (recordClocks evs initialState) ->
  highlightedEntries (runSession evs initialState)
  = match selectedAnalysis (runSession evs initialState) with
    | Some r => [r]
    | None => []
    end.
Proof.
  intros Hoff Hnd.
  pose proof (offeredSession_selectionSound evs initialState Hoff eq_refl) as Hs.
  assert (Hids : NoDup (map id (analyses (runSession evs initialState)))).
  { rewrite runSession_ids. cbn [initialState analyses map].
    rewrite app_nil_r. apply NoDup_rev.
    apply NoDup_map_injective; [exact toString_inj | exact Hnd]. }
  unfold highlightedEntries, highlighted, selectionSound in *.
  destruct (selectedAnalysis (runSession evs initialState)) as [r|].
  - apply filter_id_single; assumption.
  - rewrite Hs. reflexivity.
Qed.

Lemma offered_session_highlights_selection_witness :
  highlightedEntries (runSession
    [FileChosen (Some actFile);
     AnalyzeClicked (clockAt 1700000000000);
     AnalyzeClicked (clockAt 1700000000042);
     HistoryClicked (recordOf (clockAt 1700000000000) actFile)]
    initialState)
  = match selectedAnalysis (runSession
            [FileChosen (Some actFile);
             AnalyzeClicked (clockAt 1700000000000);
             AnalyzeClicked (clockAt 1700000000042);
             HistoryClicked (recordOf (clockAt 1700000000000) actFile)]
            initialState) with
    | Some r => [r]
    | None => []
    end.
Proof.
  apply offered_session_highlights_selection.
  - vm_compute. reflexivity.
  - cbn. repeat constructor; cbn; intuition discriminate.
Defined.

(** ** Further properties: an analysis in flight *)

Lemma quiet_session_keeps_history (evs : list Event) :
  forall s,
    forallb (fun ev => negb (isAnalyzeClick ev)) evs = true ->
    analyses (runSession evs s) = analyses s.
Proof.
  induction evs as [|ev evs IH]; intros s H.
  - reflexivity.
  - cbn [forallb] in H. apply andb_prop in H. destruct H as [Hev Hrest].
    cbn [runSession]. rewrite (IH _ Hrest).
    destruct (handler_history ev s) as [[Ha _] | [w [f [-> _]]]].
    + exact Ha.
    + discriminate Hev.
Qed.

(** X7: nothing the user does while the read is pending cancels the
    analysis.  If, between the click and the end of a successful read, only
    events other than another Analyze click are handled, then the run still
    puts its record in front of the history as it was at the click, selects
    it (overriding any selection made meanwhile) and clears the flag; the
    held file is what those events left, so a file removed meanwhile stays
    removed. *)
Theorem handleAnalyze_resume_after_other_events
    (w : World) (s s1 : State) (p : Pending) (evs : list Event) :
  handleAnalyze_begin s = (Some p, s1) ->
  forallb (fun ev => negb (isAnalyzeClick ev)) evs = true ->
  readError w = None ->
  stateAfter (handleAnalyze_resume w p) (runSession evs s1)
  = {| uploadedFile := uploadedFile (runSession evs s1);
       analyses := recordOf w (heldAtClick p) :: analyses s;
       selectedAnalysis := Some (recordOf w (heldAtClick p));
       isAnalyzing := false |}
  /\ analyses (runSession evs s1) = analyses s
  /\ uploadedFile s = Some (heldAtClick p).
Proof.
  intros Hb Hq He. unfold handleAnalyze_begin in Hb.
  destruct (uploadedFile s) as [f|] eqn:Hf; [|discriminate Hb].
  injection Hb as <- <-. cbn [heldAtClick historyAtClick].
  split; [|split; [|reflexivity]].
  - unfold stateAfter at 1.
    unfold handleAnalyze_resume, bind, tryCatchFinally, await, File_text.
    rewrite He. reflexivity.
  - rewrite (quiet_session_keeps_history evs _ Hq). reflexivity.
Qed.

Lemma handleAnalyze_resume_after_other_events_witness :
  stateAfter (handleAnalyze_resume (clockAt 1700000000000)
                {| heldAtClick := actFile; historyAtClick := [] |})
    (runSession [RemoveClicked]
       (stateAfter (setIsAnalyzing true) (holding actFile)))
  = {| uploadedFile := uploadedFile (runSession [RemoveClicked]
                         (stateAfter (setIsAnalyzing true) (holding actFile)));
       analyses := [recordOf (clockAt 1700000000000) actFile];
       selectedAnalysis := Some (recordOf (clockAt 1700000000000) actFile);
       isAnalyzing := false |}
  /\ analyses (runSession [RemoveClicked]
                 (stateAfter (setIsAnalyzing true) (holding actFile))) = []
  /\ uploadedFile (holding actFile) = Some actFile.
Proof.
  apply (handleAnalyze_resume_after_other_events (clockAt 1700000000000)
           (holding actFile)
           (stateAfter (setIsAnalyzing true) (holding actFile))
           {| heldAtClick := actFile; historyAtClick := [] |}
           [RemoveClicked]); reflexivity.
Defined.

(** X8: a failed run leaves no trace for the next one: running
    [handleAnalyze] after a run whose read was rejected gives the state that
    running it alone gives. *)
Theorem handleAnalyze_retry_after_failure
    (wf w : World) (s : State) (f : File) (e : string) :
  uploadedFile s = Some f ->
  readError wf = Some e ->
  stateAfter (handleAnalyze w) (stateAfter (handleAnalyze wf) s)
  = stateAfter (handleAnalyze w) s.
Proof.
  intros Hf He. unfold stateAfter at 2.
  rewrite (handleAnalyze_rejected wf s f e Hf He). cbn [fst snd].
  destruct s as [u h sel b]. cbn in Hf. subst u.
  unfold stateAfter, handleAnalyze, bind, tryCatchFinally, await, File_text.
  cbn [uploadedFile analyses].
  destruct (readError w); reflexivity.
Qed.

Lemma handleAnalyze_retry_after_failure_witness :
  stateAfter (handleAnalyze (clockAt 1700000000042))
    (stateAfter (handleAnalyze (unreadableAt 1700000000000)) (holding actFile))
  = stateAfter (handleAnalyze (clockAt 1700000000042)) (holding actFile).
Proof.
  apply (handleAnalyze_retry_after_failure (unreadableAt 1700000000000)
           (clockAt 1700000000042) (holding actFile) actFile "NotReadableError");
    reflexivity.
Defined.

(** X9: the disabled Analyze button is what keeps overlapping runs apart.
    While a run is pending the page does not offer another Analyze click;
    were a second run handled in full before the first resumes, the first
    would write back the history it saw at its click, and of the two
    successful runs only its own record would be in the history. *)
Theorem handleAnalyze_overlap_guarded
    (w1 w2 : World) (s s1 : State) (p : Pending) :
  handleAnalyze_begin s = (Some p, s1) ->
  readError w1 = None ->
  readError w2 = None ->
  offered s1 (AnalyzeClicked w2) = false
  /\ analyses (stateAfter (handleAnalyze w2) s1)
     = recordOf w2 (heldAtClick p) :: analyses s
  /\ analyses (stateAfter (handleAnalyze_resume w1 p)
                 (stateAfter (handleAnalyze w2) s1))
     = recordOf w1 (heldAtClick p) :: analyses s.
Proof.
  intros Hb H1 H2. unfold handleAnalyze_begin in Hb.
  destruct s as [[f|] h sel b]; cbn [uploadedFile analyses] in *;
    [|discriminate Hb].
  injection Hb as <- <-. cbn [heldAtClick historyAtClick].
  split; [reflexivity|].
  unfold stateAfter, handleAnalyze_resume, handleAnalyze, setIsAnalyzing,
    bind, tryCatchFinally, await, File_text.
  cbn [uploadedFile analyses fst snd heldAtClick historyAtClick].
  rewrite H1, H2. split; reflexivity.
Qed.

Lemma handleAnalyze_overlap_guarded_witness :
  offered (stateAfter (setIsAnalyzing true) (holding actFile))
    (AnalyzeClicked (clockAt 1700000000042)) = false
  /\ analyses (stateAfter (handleAnalyze (clockAt 1700000000042))
                 (stateAfter (setIsAnalyzing true) (holding actFile)))
     = recordOf (clockAt 1700000000042) actFile :: analyses (holding actFile)
  /\ analyses (stateAfter
                 (handleAnalyze_resume (clockAt 1700000000000)
                    {| heldAtClick := actFile; historyAtClick := [] |})
                 (stateAfter (handleAnalyze (clockAt 1700000000042))
                    (stateAfter (setIsAnalyzing true) (holding actFile))))
     = recordOf (clockAt 1700000000000) actFile :: analyses (holding actFile).
Proof.
  apply (handleAnalyze_overlap_guarded (clockAt 1700000000000)
           (clockAt 1700000000042) (holding actFile)
           (stateAfter (setIsAnalyzing true) (holding actFile))
           {| heldAtClick := actFile; historyAtClick := [] |}); reflexivity.
Defined.

(** ** Further properties: upload and export *)

(** X10: the export handlers never change the component state; with no
    record selected they do nothing at all, and [handleExportPDF] never
    starts a download: with a record selected it shows one notice. *)
Theorem export_handlers_frame (s : State) :
  stateAfter handleExportPDF s = s
  /\ stateAfter handleExportTXT s = s
  /\ (selectedAnalysis s = None ->
      effectsOf handleExportPDF s = [] /\ effectsOf handleExportTXT s = [])
  /\ (forall r, selectedAnalysis s = Some r ->
      effectsOf handleExportPDF s =
        [Alert "PDF export functionality - integrate with jsPDF or similar library"]).
Proof.
  unfold stateAfter, effectsOf, handleExportPDF, handleExportTXT.
  destruct s as [u h [sel|] b]; cbn [selectedAnalysis]; repeat split;
    intros; try discriminate; reflexivity.
Qed.

Lemma export_handlers_frame_witness :
  effectsOf handleExportPDF initialState = []
  /\ effectsOf handleExportTXT initialState = [].
Proof.
  apply (proj1 (proj2 (proj2 (export_handlers_frame initialState)))).
  reflexivity.
Defined.

(** X11: picking a history entry and exporting gives the download of that
    entry, whatever was selected before; picking it does not touch the
    history or the held file. *)
Theorem select_then_export (s : State) (a : Analysis) :
  effectsOf handleExportTXT (stateAfter (handleSelect a) s) =
    [AnchorClick {| blobParts := content a; blobType := "text/plain" |}
                 (filename a ++ "_analysis.txt")]
  /\ analyses (stateAfter (handleSelect a) s) = analyses s
  /\ uploadedFile (stateAfter (handleSelect a) s) = uploadedFile s
  /\ highlighted (stateAfter (handleSelect a) s) a = true.
Proof.
  unfold effectsOf, stateAfter, handleExportTXT, handleSelect, highlighted.
  cbn. rewrite String.eqb_refl. repeat split.
Qed.

(** X12: after a successful analysis of the held file [f], the text export
    downloads [<f.name>_analysis.txt] holding the template filled with the
    name of [f], one more than the number of spaces of its text and one more
    than the number of its line feeds; removing the file first changes
    nothing of it. *)
Theorem analyze_then_export (w : World) (s : State) (f : File) :
  uploadedFile s = Some f ->
  readError w = None ->
  effectsOf handleExportTXT (stateAfter (handleAnalyze w) s) =
    [AnchorClick
       {| blobParts :=
            analysisTemplate (name f)
              (Z.of_nat (S (countChar SP (fileText f))))
              (Z.of_nat (S (countChar LF (fileText f))));
          blobType := "text/plain" |}
       (name f ++ "_analysis.txt")]
  /\ effectsOf handleExportTXT
       (stateAfter handleRemove (stateAfter (handleAnalyze w) s))
     = effectsOf handleExportTXT (stateAfter (handleAnalyze w) s).
Proof.
  intros Hf He. unfold stateAfter at 1 3 4.
  rewrite (handleAnalyze_resolved w s f Hf He). cbn [fst snd].
  split; [|reflexivity].
  unfold effectsOf, handleExportTXT, emit.
  cbn [selectedAnalysis snd content filename recordOf].
  unfold mockAnalysis.
  change " " with (String SP ""). unfold nl.
  rewrite !split_single_length. reflexivity.
Qed.

Lemma analyze_then_export_witness :
  effectsOf handleExportTXT
    (stateAfter (handleAnalyze (clockAt 1700000000000)) (holding actFile)) =
    [AnchorClick
       {| blobParts :=
            analysisTemplate (name actFile)
              (Z.of_nat (S (countChar SP (fileText actFile))))
              (Z.of_nat (S (countChar LF (fileText actFile))));
          blobType := "text/plain" |}
       (name actFile ++ "_analysis.txt")]
  /\ effectsOf handleExportTXT
       (stateAfter handleRemove
          (stateAfter (handleAnalyze (clockAt 1700000000000)) (holding actFile)))
     = effectsOf handleExportTXT
         (stateAfter (handleAnalyze (clockAt 1700000000000)) (holding actFile)).
Proof.
  apply (analyze_then_export (clockAt 1700000000000) (holding actFile) actFile);
    reflexivity.
Defined.

(** X13: [handleFileUpload] keeps the last file picked: a change event
    without a file leaves the state, and so a file held before, as it was,
    and a file picked after another replaces it; neither touches the
    history, the selection or the flag. *)
Theorem handleFileUpload_last_pick_wins (s : State) (f g : File) :
  stateAfter (handleFileUpload None) s = s
  /\ stateAfter (handleFileUpload None) (stateAfter (handleFileUpload (Some f)) s)
     = stateAfter (handleFileUpload (Some f)) s
  /\ stateAfter (handleFileUpload (Some g))
       (stateAfter (handleFileUpload (Some f)) s)
     = stateAfter (handleFileUpload (Some g)) s
  /\ stateAfter (handleFileUpload (Some g)) s
     = {| uploadedFile := Some g; analyses := analyses s;
          selectedAnalysis := selectedAnalysis s;
          isAnalyzing := isAnalyzing s |}.
Proof.
  repeat split.
Qed.

(** ** Further properties: what [split] cuts *)

Section SplitFacts.

Lemma append_empty_r (s : string) : (s ++ "")%string = s.
Proof.
  induction s as [|c s IH]; cbn; [reflexivity | now rewrite IH].
Qed.

Lemma append_snoc (cur s : string) (c : ascii) :
  ((cur ++ String c "") ++ s)%string = (cur ++ String c s)%string.
Proof.
  induction cur as [|x cur IH]; cbn; [reflexivity | now rewrite IH].
Qed.

Lemma append_length (a b : string) :
  String.length (a ++ b) = String.length a + String.length b.
Proof.
  induction a as [|c a IH]; cbn; [reflexivity | now rewrite IH].
Qed.

Lemma prefix_decompose :
  forall p s, prefix p s = true -> exists t, s = (p ++ t)%string.
Proof.
  induction p as [|a p IH]; intros s H.
  - exists s. reflexivity.
  - destruct s as [|c s]; [discriminate H|].
    cbn [prefix] in H. destruct (ascii_dec a c) as [->|]; [|discriminate H].
    destruct (IH s H) as [t ->]. exists t. reflexivity.
Qed.

(** Passing over the rest of a matched separator does not depend on what
    the code units passed over are. *)
Lemma split_from_skip (sep : string) :
  forall rem t cur,
    JS.split_from sep (String.length rem) cur (rem ++ t)
    = JS.split_from sep 0 cur t.
Proof.
  induction rem as [|c rem IH]; intros t cur.
  - reflexivity.
  - cbn [String.length append JS.split_from]. apply IH.
Qed.

Lemma split_from_cons (sep : string) :
  forall s k cur, exists x rest, JS.split_from sep k cur s = x :: rest.
Proof.
  induction s as [|c s IH]; intros k cur.
  - exists cur, []. reflexivity.
  - cbn [JS.split_from]. destruct k as [|k].
    + destruct (prefix sep (String c s)); eauto.
    + apply IH.
Qed.

Lemma split_from_join (a : ascii) (sep' : string) :
  forall n t cur,
    String.length t <= n ->
    String.concat (String a sep') (JS.split_from (String a sep') 0 cur t)
    = (cur ++ t)%string.
Proof.
  induction n as [|n IH]; intros t cur Hn.
  - destruct t; [|cbn in Hn; lia]. cbn. now rewrite append_empty_r.
  - destruct t as [|c t].
    + cbn. now rewrite append_empty_r.
    + cbn [JS.split_from].
      destruct (prefix (String a sep') (String c t)) eqn:Hp.
      * cbn [prefix] in Hp. destruct (ascii_dec a c) as [->|]; [|discriminate Hp].
        destruct (prefix_decompose _ _ Hp) as [t' ->].
        cbn [String.length Nat.sub]. rewrite Nat.sub_0_r, split_from_skip.
        destruct (split_from_cons (String c sep') t' 0 "") as [x [rest E]].
        cbn [String.concat]. rewrite E, <- E.
        rewrite IH.
        -- reflexivity.
        -- cbn [String.length] in Hn. rewrite append_length in Hn. lia.
      * rewrite IH; [apply append_snoc | cbn [String.length] in Hn; lia].
Qed.

Lemma concat_singletons (s : string) :
  String.concat "" (map (fun c => String c "") (list_ascii_of_string s)) = s.
Proof.
  induction s as [|c s IH]; [reflexivity|].
  cbn [list_ascii_of_string map String.concat].
  destruct s as [|c' s]; [reflexivity|].
  cbn [list_ascii_of_string map] in *. rewrite IH. reflexivity.
Qed.

Lemma freeOf_snoc (a c : ascii) (cur : string) :
  freeOf a cur -> c <> a -> freeOf a (cur ++ String c "").
Proof.
  induction cur as [|x cur IH]; cbn; intros H Hc.
  - auto.
  - destruct H as [Hx H]. auto.
Qed.

Lemma segments_from_freeOf (a : ascii) :
  forall s cur seg,
    freeOf a cur ->
    In seg (segments_from (Ascii.eqb a) cur s) -> freeOf a seg.
Proof.
  induction s as [|c s IH]; intros cur seg Hcur Hin; cbn [segments_from] in Hin.
  - destruct Hin as [<- | []]. exact Hcur.
  - destruct (Ascii.eqb_spec a c) as [->|Hne].
    + destruct Hin as [<- | Hin]; [exact Hcur|].
      apply (IH "" seg); [exact I | exact Hin].
    + apply (IH (cur ++ String c "")%string seg); [|exact Hin].
      apply freeOf_snoc; [exact Hcur | congruence].
Qed.

End SplitFacts.

(** X14: [split] loses nothing: for every separator and every string,
    joining the segments with the separator gives the string back. *)
Theorem split_then_join (sep s : string) :
  String.concat sep (JS.split sep s) = s.
Proof.
  destruct sep as [|a sep'].
  - apply concat_singletons.
  - unfold JS.split. rewrite (split_from_join a sep' (String.length s)); auto.
Qed.

(** X15: the segments counted as words hold no space and those counted as
    lines hold no line feed: a segment of a split on a separator of one code
    unit never contains that code unit. *)
Theorem split_segments_free_of_separator (a : ascii) (s seg : string) :
  In seg (JS.split (String a "") s) -> freeOf a seg.
Proof.
  rewrite split_single. unfold segmentsAt.
  apply segments_from_freeOf. exact I.
Qed.

Lemma split_segments_free_of_separator_witness :
  freeOf SP "b".
Proof.
  apply (split_segments_free_of_separator SP "a b c" "b").
  cbn. auto.
Defined.
